(** * The LRU queue broker of the zguide C examples

    A shallow embedding of the two load-balancing brokers
    [zguide/examples/C/lruqueue2.c] (poll-driven main loop) and
    [zguide/examples/C/lruqueue3.c] (reactor with two handlers), and the
    properties of their routing behaviour.

    Layout:
    - [Czmq]: frames, messages, the ready list, the sockets and the small
      state-and-failure monad in which the broker code is written;
    - [Poll]: [lruqueue2.c];
    - [Reactor]: [lruqueue3.c];
    - the theorems. *)

From Stdlib Require Import List Bool Arith ZArith Lia.
From Stdlib Require Import Strings.Byte.
Import ListNotations.

(* ================================================================== *)
(** ** Frames, messages and the broker's world *)

Module Czmq.

(** A frame ([zframe_t]) is a block of bytes, a message ([zmsg_t]) a list of
    frames, outermost first. *)
Definition zframe := list byte.
Definition zmsg := list zframe.

(** [#define LRU_READY "\001"].  Both uses of the macro pass a length of 1,
    so the terminating NUL of the C literal is left out. *)
Definition LRU_READY : list byte := [x01].

(** The two ROUTER sockets of the broker. *)
Inductive channel := Frontend | Backend.

Definition channel_eqb (a b : channel) : bool :=
  match a, b with
  | Frontend, Frontend | Backend, Backend => true
  | _, _ => false
  end.

(** The reactor handlers, by name. *)
Inductive handler := S_handle_frontend | S_handle_backend.

(** A registered reader of a [zloop_t]: a socket and its handler. *)
Record reader := Reader { rd_socket : channel; rd_handler : handler }.

(** What the library calls do to the world outside the call, in the order
    in which they happen. *)
Inductive effect :=
| Appended (address : zframe)            (* zlist_append *)
| Popped (address : zframe)              (* zlist_pop    *)
| Sent (socket : channel) (msg : zmsg).  (* zmsg_send    *)

(** Failures of the library calls that the broker code never tests for. *)
Inductive fault :=
| MalformedEnvelope   (* zmsg_unwrap on a message without a leading frame *)
| EmptyBody           (* zmsg_first on a message without a frame *)
| QueueEmpty          (* zlist_pop on an empty list *)
| FrameOverread.      (* memcmp reads past the end of the frame data *)

Definition fault_eqb (a b : fault) : bool :=
  match a, b with
  | MalformedEnvelope, MalformedEnvelope | EmptyBody, EmptyBody
  | QueueEmpty, QueueEmpty | FrameOverread, FrameOverread => true
  | _, _ => false
  end.

(** The world of a broker: its list of ready workers, the readers of its
    reactor (only [lruqueue3.c] has one), the messages the transport holds
    for each socket and has not delivered yet, whether the transport has
    signalled interruption, and the effects so far. *)
Record world := World {
  workers     : list zframe;
  readers     : list reader;
  fe_pending  : list zmsg;
  be_pending  : list zmsg;
  interrupted : bool;
  trace       : list effect
}.

Definition pending (s : channel) (w : world) : list zmsg :=
  match s with Frontend => fe_pending w | Backend => be_pending w end.

Definition set_workers (l : list zframe) (w : world) : world :=
  World l (readers w) (fe_pending w) (be_pending w) (interrupted w) (trace w).
Definition set_readers (l : list reader) (w : world) : world :=
  World (workers w) l (fe_pending w) (be_pending w) (interrupted w) (trace w).
Definition set_pending (s : channel) (q : list zmsg) (w : world) : world :=
  match s with
  | Frontend =>
      World (workers w) (readers w) q (be_pending w) (interrupted w) (trace w)
  | Backend =>
      World (workers w) (readers w) (fe_pending w) q (interrupted w) (trace w)
  end.
Definition set_interrupted (b : bool) (w : world) : world :=
  World (workers w) (readers w) (fe_pending w) (be_pending w) b (trace w).
Definition log (e : effect) (w : world) : world :=
  World (workers w) (readers w) (fe_pending w) (be_pending w) (interrupted w)
        (trace w ++ [e]).

(** *** The monad of broker code

    A computation either returns a value, leaves the enclosing loop
    ([break]), or stops at a failure that the code does not handle. *)
Inductive result (A : Type) :=
| Ok (a : A) (w : world)
| Break (w : world)
| Abort (f : fault) (w : world).
Arguments Ok {A} a w.
Arguments Break {A} w.
Arguments Abort {A} f w.

Definition M (A : Type) := world -> result A.

Definition ret {A} (a : A) : M A := fun w => Ok a w.
Definition bind {A B} (m : M A) (k : A -> M B) : M B :=
  fun w => match m w with
           | Ok a w' => k a w'
           | Break w' => Break w'
           | Abort f w' => Abort f w'
           end.
Definition break {A} : M A := fun w => Break w.
Definition abort {A} (f : fault) : M A := fun w => Abort f w.

Declare Scope broker_scope.
Delimit Scope broker_scope with broker.
Notation "x <- m ;; k" := (bind m (fun x => k))
  (at level 61, m at next level, right associativity) : broker_scope.
Notation "m ;; k" := (bind m (fun _ => k))
  (at level 61, right associativity) : broker_scope.
Open Scope broker_scope.

(** *** zlist *)

(** Modelled from the spec: [zlist_size] is czmq code, absent from src/.
    Section 4.2: size. *)
Definition zlist_size : M nat := fun w => Ok (length (workers w)) w.

(** Modelled from the spec: [zlist_append] is czmq code, absent from src/.
    Section 4.2: append adds the address to the back. *)
Definition zlist_append (item : zframe) : M unit := fun w =>
  Ok tt (log (Appended item) (set_workers (workers w ++ [item]) w)).

(** Modelled from the spec: [zlist_pop] is czmq code, absent from src/.
    Section 4.2: popFront removes and returns the front address and
    fails with QueueEmpty if no worker is available. *)
Definition zlist_pop : M zframe := fun w =>
  match workers w with
  | [] => Abort QueueEmpty w
  | a :: l => Ok a (log (Popped a) (set_workers l w))
  end.

(** *** zmsg and zframe *)

(** Modelled from the spec: [zmsg_unwrap] is czmq code, absent from src/.
    Section 4.1: unwrap pops the outermost address and leaves the rest as
    the message; it fails with MalformedEnvelope if the message has no
    leading address frame. *)
Definition zmsg_unwrap (msg : zmsg) : option (zframe * zmsg) :=
  match msg with
  | [] => None
  | address :: rest => Some (address, rest)
  end.

(** Modelled from the spec: [zmsg_wrap] is czmq code, absent from src/.
    Section 4.1: wrap pushes the address as the new outermost frame and
    always succeeds. *)
Definition zmsg_wrap (msg : zmsg) (address : zframe) : zmsg := address :: msg.

(** Modelled from the spec: [zmsg_first] is czmq code, absent from src/.
    Section 4.1: firstBodyFrame returns the first frame of the message and
    fails with EmptyBody if there is none. *)
Definition zmsg_first (msg : zmsg) : option zframe :=
  match msg with
  | [] => None
  | frame :: _ => Some frame
  end.

Definition zframe_data (frame : zframe) : list byte := frame.

(** [memcmp (p, q, n)]: the sign of the first difference among the first [n]
    bytes, 0 if there is none; [None] when a block is shorter than the [n]
    bytes read. *)
Fixpoint memcmp (p q : list byte) (n : nat) {struct n} : option Z :=
  match n with
  | O => Some 0%Z
  | S n' =>
      match p, q with
      | a :: p', b :: q' =>
          if Byte.eqb a b then memcmp p' q' n'
          else Some (Z.of_N (Byte.to_N a) - Z.of_N (Byte.to_N b))%Z
      | _, _ => None
      end
  end.

(** Failures of the option-returning calls stop the computation: the broker
    code uses their results without a test.  The program itself runs on,
    with a NULL result until a call fails on it and with the stray byte of a
    read past a frame as with any other byte; the stop is placed at the call
    that gave no result, so the world of an [Abort] is the world at that
    call and not a state of the program after it. *)
Definition unchecked {A} (f : fault) (o : option A) : M A :=
  match o with
  | Some a => ret a
  | None => abort f
  end.

(** *** Sockets *)

(** Modelled from the spec: [zmsg_recv] is czmq code, absent from src/.
    Section 6: receiveMultipart gives the next message the transport holds
    for the socket, or NULL when the transport was interrupted (and, here,
    when it holds none: the loops only receive on a socket that polled
    readable). *)
Definition zmsg_recv (s : channel) : M (option zmsg) := fun w =>
  if interrupted w then Ok None w
  else match pending s w with
       | [] => Ok None w
       | m :: q => Ok (Some m) (set_pending s q w)
       end.

(** Modelled from the spec: [zmsg_send] is czmq code, absent from src/.
    Section 6: sendMultipart hands the message to the transport. *)
Definition zmsg_send (msg : zmsg) (s : channel) : M unit := fun w =>
  Ok tt (log (Sent s msg) w).

Definition zmsg_destroy (msg : zmsg) : M unit := ret tt.

Definition readable (s : channel) (w : world) : bool :=
  match pending s w with [] => false | _ :: _ => true end.

(** Modelled from the spec: [zmq_poll] is transport code, absent from src/.
    Section 6: poll (channels, timeout) gives the set of ready channels;
    -1 when interrupted, otherwise the number of polled sockets that are
    readable, with the [revents] of each polled item.  A result of 0 stands
    for a poll that is still blocked. *)
Definition zmq_poll (items : list channel) : M (Z * list (channel * bool)) :=
  fun w =>
    if interrupted w then Ok ((-1)%Z, map (fun s => (s, false)) items) w
    else
      let revents := map (fun s => (s, readable s w)) items in
      Ok (Z.of_nat (length (filter snd revents)), revents) w.

Definition revents_of (s : channel) (rev : list (channel * bool)) : bool :=
  existsb (fun i => channel_eqb (fst i) s && snd i) rev.

(** Modelled from the spec: the destination of a message sent on a ROUTER
    socket is its outermost frame (sections 4.3 and 6: the transport routes
    by the address that leads the message). *)
Definition destination (msg : zmsg) : option zframe := hd_error msg.

(** *** zloop *)

(** Modelled from the spec: [zloop_reader] is czmq code, absent from src/.
    Section 6: registerReader (channel, handler). *)
Definition zloop_reader (s : channel) (h : handler) : M unit := fun w =>
  Ok tt (set_readers (readers w ++ [Reader s h]) w).

(** Modelled from the spec: [zloop_cancel] is czmq code, absent from src/.
    Section 6: deregisterReader (channel). *)
Definition zloop_cancel (s : channel) : M unit := fun w =>
  Ok tt (set_readers
           (filter (fun r => negb (channel_eqb (rd_socket r) s)) (readers w)) w).


(** *** The transport and the runs of a broker *)

(** What happens around a broker: a message arrives at a socket, the loop
    gets to run one iteration, the transport signals interruption. *)
Inductive event :=
| Arrive (s : channel) (msg : zmsg)
| Tick
| Interrupt.

Inductive outcome :=
| Running (w : world)
| Stopped (w : world)
| Crashed (f : fault) (w : world).

(** The sends of a trace, the externally observable part. *)
Definition sends (t : list effect) : list (channel * zmsg) :=
  flat_map (fun e => match e with Sent s m => [(s, m)] | _ => [] end) t.

(** The clean-up after the loop of both [main]s:
    [while (zlist_size (workers)) { pop; zframe_destroy }]. *)
Fixpoint cleanup (fuel : nat) : M unit :=
  match fuel with
  | O => ret tt
  | S fuel' =>
      n <- zlist_size ;;
      if Nat.eqb n 0 then ret tt
      else (_ <- zlist_pop ;; cleanup fuel')
  end.

Definition finish (w : world) : outcome :=
  match cleanup (length (workers w)) w with
  | Ok _ w' | Break w' => Stopped w'
  | Abort f w' => Crashed f w'
  end.

(** One step of a run, for a loop whose iteration is [iteration]: it returns
    [true] to go round again. *)
Definition step (iteration : M bool) (o : outcome) (e : event) : outcome :=
  match o with
  | Running w =>
      match e with
      | Arrive s msg => Running (set_pending s (pending s w ++ [msg]) w)
      | Interrupt => Running (set_interrupted true w)
      | Tick =>
          match iteration w with
          | Ok true w' => Running w'
          | Ok false w' | Break w' => finish w'
          | Abort f w' => Crashed f w'
          end
      end
  | _ => o
  end.

Definition run (iteration : M bool) (start : outcome) (es : list event)
  : outcome :=
  fold_left (step iteration) es start.

(** Modelled from the spec: [zloop_start] is czmq code, absent from src/.
    Section 6: runLoop drives the registered readers; each iteration polls
    the sockets of the readers registered at that time and calls, in the
    order of registration, the handler of every reader whose socket polled
    readable.  A handler that returns -1 ends the loop, as does an
    interruption of the poll. *)
Fixpoint zloop_dispatch (call : handler -> M Z) (ready : list reader)
  : M bool :=
  match ready with
  | [] => ret true
  | r :: rest =>
      rc <- call (rd_handler r) ;;
      if Z.eqb rc (-1) then ret false else zloop_dispatch call rest
  end.

Definition zloop_iteration (call : handler -> M Z) : M bool :=
  pollset <- (fun w => Ok (readers w) w) ;;
  polled <- zmq_poll (map rd_socket pollset) ;;
  if Z.eqb (fst polled) (-1) then ret false
  else zloop_dispatch call
         (filter (fun r => revents_of (rd_socket r) (snd polled)) pollset).

Definition fresh : world := World [] [] [] [] false [].

End Czmq.

(* ================================================================== *)
(** ** lruqueue2.c: the poll-driven broker *)

Module Poll.
Import Czmq.

(** Lines 100-114 of [main]: worker activity on the backend. *)
Definition main_backend : M unit :=
  msg <- zmsg_recv Backend ;;
  match msg with
  | None => break                                       (* Interrupted *)
  | Some msg =>
      unwrapped <- unchecked MalformedEnvelope (zmsg_unwrap msg) ;;
      let address := fst unwrapped in
      let msg := snd unwrapped in
      zlist_append address ;;
      (* Forward message to client if it's not a READY *)
      frame <- unchecked EmptyBody (zmsg_first msg) ;;
      cmp <- unchecked FrameOverread (memcmp (zframe_data frame) LRU_READY 1) ;;
      if Z.eqb cmp 0 then zmsg_destroy msg
      else zmsg_send msg Frontend
  end.

(** Lines 115-122 of [main]: a client request on the frontend. *)
Definition main_frontend : M unit :=
  msg <- zmsg_recv Frontend ;;
  match msg with
  | Some msg =>
      address <- zlist_pop ;;
      zmsg_send (zmsg_wrap msg address) Backend
  | None => ret tt
  end.

(** The poll set of line 95: the first [zlist_size (workers) ? 2 : 1] items
    of [{ backend, frontend }]. *)
Definition poll_items (size : nat) : list channel :=
  firstn (if Nat.eqb size 0 then 1 else 2) [Backend; Frontend].

(** The sockets that the iteration started in [w] polls. *)
Definition polled (w : world) : list channel :=
  poll_items (length (workers w)).

(** Lines 88-123: one iteration of [while (1)]. *)
Definition main_iteration : M bool :=
  size <- zlist_size ;;
  polled <- zmq_poll (poll_items size) ;;
  if Z.eqb (fst polled) (-1) then break                 (* Interrupted *)
  else
    (if revents_of Backend (snd polled) then main_backend else ret tt) ;;
    (if revents_of Frontend (snd polled) then main_frontend else ret tt) ;;
    ret true.

(** [main]: an empty list of workers, then the loop. *)
Definition start : outcome := Running fresh.

Definition main (es : list event) : outcome := run main_iteration start es.

End Poll.

(* ================================================================== *)
(** ** lruqueue3.c: the reactor-driven broker *)

Module Reactor.
Import Czmq.

(** Handle input from client, on frontend. *)
Definition s_handle_frontend : M Z :=
  msg <- zmsg_recv Frontend ;;
  match msg with
  | Some msg =>
      address <- zlist_pop ;;
      zmsg_send (zmsg_wrap msg address) Backend ;;
      (* Cancel reader on frontend if we went from 1 to 0 workers *)
      size <- zlist_size ;;
      (if Nat.eqb size 0 then zloop_cancel Frontend else ret tt) ;;
      ret 0%Z
  | None => ret 0%Z
  end.

(** Handle input from worker, on backend. *)
Definition s_handle_backend : M Z :=
  msg <- zmsg_recv Backend ;;
  match msg with
  | Some msg =>
      unwrapped <- unchecked MalformedEnvelope (zmsg_unwrap msg) ;;
      let address := fst unwrapped in
      let msg := snd unwrapped in
      zlist_append address ;;
      (* Enable reader on frontend if we went from 0 to 1 workers *)
      size <- zlist_size ;;
      (if Nat.eqb size 1 then zloop_reader Frontend S_handle_frontend
       else ret tt) ;;
      (* Forward message to client if it's not a READY *)
      frame <- unchecked EmptyBody (zmsg_first msg) ;;
      cmp <- unchecked FrameOverread (memcmp (zframe_data frame) LRU_READY 1) ;;
      (if Z.eqb cmp 0 then zmsg_destroy msg
       else zmsg_send msg Frontend) ;;
      ret 0%Z
  | None => ret 0%Z
  end.

Definition call (h : handler) : M Z :=
  match h with
  | S_handle_frontend => s_handle_frontend
  | S_handle_backend => s_handle_backend
  end.

(** [main] up to [zloop_start]: an empty list of workers and a reactor with
    the backend reader. *)
Definition start : outcome :=
  match zloop_reader Backend S_handle_backend fresh with
  | Ok _ w => Running w
  | Break w => Stopped w
  | Abort f w => Crashed f w
  end.

Definition main (es : list event) : outcome :=
  run (zloop_iteration call) start es.

End Reactor.

(* ================================================================== *)
(** ** The peers of the broker: [worker_task] and the client's request *)

Module Transport.
Import Czmq.

(** Modelled from the spec: section 6, a ROUTER socket prefixes each inbound
    message with the routing address of the peer that sent it. *)
Definition inbound (peer : zframe) (msg : zmsg) : zmsg := peer :: msg.

(** Modelled from the spec: sections 4.3 and 8, a message sent on a ROUTER
    socket goes to the peer named by its outermost frame, which receives the
    message without that frame. *)
Definition delivered (msg : zmsg) : option (zframe * zmsg) :=
  match msg with
  | [] => None
  | peer :: rest => Some (peer, rest)
  end.

End Transport.

Module Worker.
Import Czmq.

(** The literal of [zframe_reset (zmsg_last (msg), "OK", 2)]. *)
Definition OK : list byte := [x4f; x4b].

(** [zframe_new (data, size)] and [zframe_reset (frame, data, size)]: the
    frame holds the first [size] bytes of [data]. *)
Definition zframe_new (data : list byte) (size : nat) : zframe :=
  firstn size data.

(** [zmsg_last]: the last frame of the message, NULL if it has none. *)
Definition zmsg_last (msg : zmsg) : option zframe :=
  match msg with
  | [] => None
  | _ :: _ => Some (last msg [])
  end.

(** Lines 57-58 of [worker_task]: the message sent back for [msg], its last
    frame reset to ["OK"]; nothing when [msg] has no frame to reset. *)
Definition answer (msg : zmsg) : option zmsg :=
  match zmsg_last msg with
  | None => None
  | Some _ => Some (removelast msg ++ [zframe_new OK 2])
  end.

(** Lines 48-49: the readiness signal, one frame of one byte. *)
Definition ready : zmsg := [zframe_new LRU_READY 1].

(** Lines 52-59: the loop, over the messages received before the
    interruption; the messages sent, or nothing when a reset failed. *)
Fixpoint worker_loop (inbox : list zmsg) : option (list zmsg) :=
  match inbox with
  | [] => Some []                                       (* Interrupted *)
  | msg :: inbox' =>
      match answer msg with
      | None => None
      | Some reply =>
          match worker_loop inbox' with
          | None => None
          | Some sent => Some (reply :: sent)
          end
      end
  end.

Definition worker_task (inbox : list zmsg) : option (list zmsg) :=
  match worker_loop inbox with
  | None => None
  | Some sent => Some (ready :: sent)
  end.

End Worker.

Module Client.
Import Czmq.

(** [zstr_send (client, "HELLO")]: one frame that holds the string. *)
Definition HELLO : list byte := [x48; x45; x4c; x4c; x4f].
Definition request : zmsg := [HELLO].

End Client.

(* ================================================================== *)
(** ** The vocabulary of the statements *)

Section Vocabulary.
Import Czmq.

(** A world without its reactor. *)
Definition forget (w : world) : world := set_readers [] w.

Definition forget_outcome (o : outcome) : outcome :=
  match o with
  | Running w => Running (forget w)
  | Stopped w => Stopped (forget w)
  | Crashed f w => Crashed f (forget w)
  end.

(** The readers that go with a list of ready workers. *)
Definition subscribed (l : list zframe) : list reader :=
  Reader Backend S_handle_backend ::
  match l with
  | [] => []
  | _ :: _ => [Reader Frontend S_handle_frontend]
  end.

Definition synced (w : world) : Prop := readers w = subscribed (workers w).

Definition outcome_synced (o : outcome) : Prop :=
  match o with
  | Running w => synced w
  | _ => True
  end.

(** Whether a run ended in a pop from the empty list. *)
Definition pop_failed (o : outcome) : bool :=
  match o with
  | Crashed f _ => fault_eqb f QueueEmpty
  | _ => false
  end.

(** *** The two phases of an LRU round *)

(** Workers report ready one after the other, each report handled before
    the next arrives. *)
Definition ready_phase (l : list zframe) : list event :=
  flat_map (fun a => [Arrive Backend [a; LRU_READY]; Tick]) l.

(** Client requests arrive one after the other, each handled before the
    next arrives. *)
Definition request_phase (l : list zmsg) : list event :=
  flat_map (fun m => [Arrive Frontend m; Tick]) l.

(** The effects of dispatching the requests of [jobs] to their workers. *)
Definition dispatched (jobs : list (zframe * zmsg)) : list effect :=
  flat_map (fun j => [Popped (fst j); Sent Backend (zmsg_wrap (snd j) (fst j))])
           jobs.

(** A property of the world at the points where a running loop is about to
    poll; a loop that has stopped has none left. *)
Definition at_observation (P : world -> Prop) (o : outcome) : Prop :=
  match o with
  | Running w => P w
  | _ => True
  end.

(** What a run shows to the outside: how it stands, what it sent, and the
    ready workers it holds. *)
Inductive status := IsRunning | IsStopped | IsCrashed (f : fault).

Definition observable (o : outcome)
  : status * list (channel * zmsg) * list zframe :=
  match o with
  | Running w => (IsRunning, sends (trace w), workers w)
  | Stopped w => (IsStopped, sends (trace w), workers w)
  | Crashed f w => (IsCrashed f, sends (trace w), workers w)
  end.

(** *** The backend branch *)

(** The backend code, run in [w], queues [W] and then forwards to the client
    [C] the message [C :: rest] and nothing else. *)
Definition forwards_reply {A} (code : M A) (w : world)
           (W C : zframe) (rest : zmsg) : Prop :=
  exists (r : A) (w' : world),
    code w = Ok r w'
    /\ workers w' = workers w ++ [W]
    /\ trace w' = trace w ++ [Appended W; Sent Frontend (C :: rest)]
    /\ destination (C :: rest) = Some C.

(** The backend code, run in [w], queues [W] and sends nothing. *)
Definition absorbs_ready {A} (code : M A) (w : world) (W : zframe) : Prop :=
  exists (r : A) (w' : world),
    code w = Ok r w'
    /\ workers w' = workers w ++ [W]
    /\ trace w' = trace w ++ [Appended W]
    /\ sends (trace w') = sends (trace w).

(** Frames and messages for the examples: transport-assigned addresses lead
    with a zero byte, [client_x] is an address a client chose for itself. *)
Definition worker_1 : zframe := [x00; x57; x31].
Definition client_1 : zframe := [x00; x43; x31].
Definition client_x : zframe := [x01; x43; x78].
Definition hello : zframe := [x48; x45; x4c; x4c; x4f].
Definition ok : zframe := [x4f; x4b].

(** *** The frontend branch *)

(** The frontend code, run in [w] with a worker ready and a request
    waiting, sends the request to that worker and changes nothing but the
    list of ready workers, which loses its head. *)
Definition only_dispatches {A} (code : M A) (w : world) : Prop :=
  match workers w, fe_pending w with
  | a :: ws, m :: fq =>
      exists r : A,
        code w = Ok r (World ws (readers w) fq (be_pending w) (interrupted w)
                         (trace w ++ [Popped a; Sent Backend (zmsg_wrap m a)]))
  | _, _ => True
  end.

(** *** Messages without an address frame *)

(** The code, run in [w], returns without a send and leaves the list of ready
    workers as it was. *)
Definition drops_and_continues {A} (code : M A) (w : world) : Prop :=
  exists (r : A) (w' : world),
    code w = Ok r w' /\ workers w' = workers w /\ trace w' = trace w.

(** *** Readings of a trace and of a sequence of events *)

(** The world an outcome stands in. *)
Definition world_of (o : outcome) : world :=
  match o with
  | Running w | Stopped w | Crashed _ w => w
  end.

Definition world_of_result {A} (r : result A) : world :=
  match r with
  | Ok _ w | Break w | Abort _ w => w
  end.

(** The addresses appended to, and popped from, the list of ready workers. *)
Definition appended (t : list effect) : list zframe :=
  flat_map (fun e => match e with Appended a => [a] | _ => [] end) t.
Definition popped (t : list effect) : list zframe :=
  flat_map (fun e => match e with Popped a => [a] | _ => [] end) t.

(** The workers to which the messages sent on the backend went, and the
    requests these messages carried. *)
Definition backend_destinations (t : list effect) : list zframe :=
  flat_map (fun e => match e with
                     | Sent Backend (a :: _) => [a]
                     | _ => []
                     end) t.
Definition served (t : list effect) : list zmsg :=
  flat_map (fun e => match e with Sent Backend msg => [tl msg] | _ => [] end) t.

(** The messages sent on the frontend. *)
Definition forwarded (t : list effect) : list zmsg :=
  flat_map (fun e => match e with Sent Frontend msg => [msg] | _ => [] end) t.

(** The messages that arrived at a socket. *)
Definition arrivals (s : channel) (es : list event) : list zmsg :=
  flat_map (fun e => match e with
                     | Arrive s' m => if channel_eqb s' s then [m] else []
                     | _ => []
                     end) es.

(** The leading frames of the messages that have one. *)
Definition heads (l : list zmsg) : list zframe :=
  flat_map (fun m => match m with a :: _ => [a] | [] => [] end) l.

(** A computation keeps [P], however it ends. *)
Definition preserves {A} (P : world -> Prop) (m : M A) : Prop :=
  forall w, P w -> P (world_of_result (m w)).

(** The list of ready workers is what was appended and not popped yet. *)
Definition fifo (w : world) : Prop :=
  appended (trace w) = popped (trace w) ++ workers w.

(** The books of a running broker balance against the requests [F] and the
    senders [B] of the messages that arrived: each pop was followed by a
    send to the popped worker, each request is either sent to a worker or
    still held by the transport, and each sender is either appended or its
    message still held by the transport. *)
Definition accounted (F : list zmsg) (B : list zframe) (w : world) : Prop :=
  popped (trace w) = backend_destinations (trace w)
  /\ F = served (trace w) ++ fe_pending w
  /\ B = appended (trace w) ++ heads (be_pending w).

(** One worker and one client: the worker reports ready, the client's
    request arrives, and the worker answers what the broker sent it.  Each
    message is handled before the next arrives. *)
Definition session (W C : zframe) (payload : zmsg) : list event :=
  [Arrive Backend (Transport.inbound W Worker.ready); Tick;
   Arrive Frontend (Transport.inbound C payload); Tick]
  ++ match Worker.answer (C :: payload) with
     | Some reply => [Arrive Backend (Transport.inbound W reply); Tick]
     | None => []
     end.

(** The remainders of the backend messages that are replies: those whose
    first frame after the sender's address begins with a byte other than
    the sentinel's. *)
Definition reply_parts (l : list zmsg) : list zmsg :=
  flat_map (fun m => match m with
                     | _ :: ((b :: _) :: _) as rest =>
                         if Byte.eqb b x01 then [] else [rest]
                     | _ => []
                     end) l.

(** The replies among the backend messages [R] are those forwarded and those
    the transport still holds. *)
Definition replied (R : list zmsg) (w : world) : Prop :=
  reply_parts R = forwarded (trace w) ++ reply_parts (be_pending w).

(** *** What an iteration listens to *)



(** Whether a run has ended in a failure. *)
Definition crashed (o : outcome) : bool :=
  match o with
  | Crashed _ _ => true
  | _ => false
  end.

(** The sentinel test can read the message: the frame after the leading one,
    if there is one, holds a byte. *)
Definition testable (m : zmsg) : Prop := nth_error m 1 <> Some [].

End Vocabulary.

(* ================================================================== *)
(** ** The code of the handlers, evaluated *)

Section HandlerEquations.
Import Czmq.

Variables (ws : list zframe) (rs : list reader) (fq bq : list zmsg)
          (tr : list effect).

(** The world after the address of a backend message was queued. *)
Definition queued (a : zframe) (rs' : list reader) : world :=
  World (ws ++ [a]) rs' fq bq false (tr ++ [Appended a]).

(** What both backend branches do with a message, by its shape. *)
Definition backend_result (rs' : list reader) (m : zmsg) : result unit :=
  match m with
  | [] => Abort MalformedEnvelope (World ws rs fq bq false tr)
  | a :: rest =>
      match rest with
      | [] => Abort EmptyBody (queued a rs')
      | [] :: _ => Abort FrameOverread (queued a rs')
      | (b :: _) :: _ =>
          if Byte.eqb b x01 then Ok tt (queued a rs')
          else Ok tt (log (Sent Frontend rest) (queued a rs'))
      end
  end.

(** The reactor's backend handler registers the frontend reader when the
    list was empty. *)
Definition enabled : list reader :=
  match ws with
  | [] => rs ++ [Reader Frontend S_handle_frontend]
  | _ :: _ => rs
  end.

Definition with_rc {A} (r : result A) (z : Z) : result Z :=
  match r with
  | Ok _ w => Ok z w
  | Break w => Break w
  | Abort f w => Abort f w
  end.

(** What both frontend branches do with a request [m], the world holding
    [m :: fq] for the frontend. *)
Definition frontend_result (rs' : list reader) (m : zmsg) : result unit :=
  match ws with
  | [] => Abort QueueEmpty (World [] rs fq bq false tr)
  | a :: ws' =>
      Ok tt (World ws' rs' fq bq false
               (tr ++ [Popped a; Sent Backend (zmsg_wrap m a)]))
  end.

(** The reactor's frontend handler cancels the frontend reader when it took
    the last worker. *)
Definition disabled : list reader :=
  match ws with
  | [_] => filter (fun r => negb (channel_eqb (rd_socket r) Frontend)) rs
  | _ => rs
  end.

(** The sentinel test looks at one byte: a frame that does not start with
    the byte 1 compares different. *)
Lemma memcmp_differs (b : byte) :
  Byte.eqb b x01 = false -> Z.eqb (Z.of_N (Byte.to_N b) - 1) 0 = false.
Proof.
  intros E; destruct b; try reflexivity; discriminate E.
Qed.

Lemma size_after_append (a : zframe) :
  Nat.eqb (length (ws ++ [a])) 1 = match ws with [] => true | _ => false end.
Proof.
  rewrite length_app; simpl.
  destruct ws; simpl; [reflexivity|].
  rewrite Nat.add_comm; reflexivity.
Qed.

Lemma poll_backend_eq (m : zmsg) :
  Poll.main_backend (World ws rs fq (m :: bq) false tr) = backend_result rs m.
Proof.
  destruct m as [|a [|[|b fb] rest]]; try reflexivity.
  unfold Poll.main_backend, bind, zmsg_recv; simpl.
  destruct (Byte.eqb b x01) eqn:E; simpl; [reflexivity|].
  rewrite (memcmp_differs b E); reflexivity.
Qed.

Lemma reactor_backend_eq (m : zmsg) :
  Reactor.s_handle_backend (World ws rs fq (m :: bq) false tr)
  = with_rc (backend_result enabled m) 0.
Proof.
  destruct m as [|a rest]; [reflexivity|].
  unfold Reactor.s_handle_backend, bind, zmsg_recv; simpl.
  rewrite size_after_append. unfold enabled, queued.
  destruct ws as [|a0 ws0]; destruct rest as [|[|b fb] rest]; simpl;
    try reflexivity;
    (destruct (Byte.eqb b x01) eqn:E; simpl;
     [reflexivity | rewrite (memcmp_differs b E); reflexivity]).
Qed.

Lemma poll_frontend_eq (m : zmsg) :
  Poll.main_frontend (World ws rs (m :: fq) bq false tr) = frontend_result rs m.
Proof.
  unfold Poll.main_frontend, frontend_result, bind, zmsg_recv, zlist_pop; simpl.
  destruct ws as [|a ws']; simpl; [reflexivity|].
  unfold zmsg_send, log; simpl. rewrite <- app_assoc; reflexivity.
Qed.

Lemma reactor_frontend_eq (m : zmsg) :
  Reactor.s_handle_frontend (World ws rs (m :: fq) bq false tr)
  = with_rc (frontend_result disabled m) 0.
Proof.
  unfold Reactor.s_handle_frontend, frontend_result, disabled, bind,
    zmsg_recv, zlist_pop; simpl.
  destruct ws as [|a [|a' ws']]; simpl; try reflexivity;
    unfold zloop_cancel, set_readers, zmsg_send, log, ret; simpl;
    rewrite <- app_assoc; reflexivity.
Qed.

End HandlerEquations.

Arguments Poll.main_backend : simpl never.
Arguments Poll.main_frontend : simpl never.
Arguments Reactor.s_handle_backend : simpl never.
Arguments Reactor.s_handle_frontend : simpl never.

(** Evaluate the handlers met in a goal by their equations. *)
Ltac crunch :=
  repeat (first [ rewrite reactor_backend_eq | rewrite poll_backend_eq
                | rewrite reactor_frontend_eq | rewrite poll_frontend_eq ];
          unfold backend_result, frontend_result, queued, enabled, disabled,
            with_rc, Czmq.log, Czmq.ret, Czmq.bind; simpl).

(* ================================================================== *)
(** ** The reactor simulates the poll loop *)

Section Simulation.
Import Czmq.

Lemma cleanup_forget (n : nat) : forall w,
  cleanup n (forget w) =
  match cleanup n w with
  | Ok a w' => Ok a (forget w')
  | Break w' => Break (forget w')
  | Abort f w' => Abort f (forget w')
  end.
Proof.
  induction n as [|n IH]; intros w; [reflexivity|].
  destruct w as [l rs fq bq i tr]; destruct l as [|a l]; [reflexivity|].
  simpl. unfold bind; simpl. apply (IH (World l rs fq bq i (tr ++ [Popped a]))).
Qed.

Lemma finish_forget (w : world) :
  forget_outcome (finish w) = finish (forget w).
Proof.
  unfold finish. replace (length (workers (forget w))) with (length (workers w))
    by reflexivity.
  rewrite cleanup_forget. destruct (cleanup _ w); reflexivity.
Qed.

Lemma finish_synced (w : world) : outcome_synced (finish w).
Proof. unfold finish; destruct (cleanup _ w); exact I. Qed.

Lemma tick_simulation (w : world) :
  synced w ->
  forget_outcome (step (zloop_iteration Reactor.call) (Running w) Tick)
  = step Poll.main_iteration (Running (forget w)) Tick
  /\ outcome_synced (step (zloop_iteration Reactor.call) (Running w) Tick).
Proof.
  destruct w as [l rs fq bq i tr]. unfold synced; simpl; intros ->.
  destruct i.
  - assert (E : zloop_iteration Reactor.call
                  (World l (subscribed l) fq bq true tr)
                = Ok false (World l (subscribed l) fq bq true tr))
      by reflexivity.
    rewrite E. split; [|apply finish_synced].
    rewrite finish_forget. destruct l; reflexivity.
  - destruct l as [|a0 [|a1 l1]], bq as [|m bq'], fq as [|r fq'];
      unfold zloop_iteration, Poll.main_iteration, forget, bind; simpl;
      unfold bind, set_readers; simpl;
      try (split; reflexivity);
      try (destruct m as [|a [|[|b fb] rest]]);
      try (destruct (Byte.eqb b x01) eqn:E);
      crunch; rewrite ?E; crunch;
      try (split; [reflexivity | first [reflexivity | exact I]]).
    all: split; [|reflexivity].
    all: unfold forget, log, set_workers, set_readers; simpl;
      rewrite <- ?app_assoc; reflexivity.
Qed.

(** Arrivals and interruptions do not touch the broker's own state. *)
Lemma step_simulation (o : outcome) (e : event) :
  outcome_synced o ->
  forget_outcome (step (zloop_iteration Reactor.call) o e)
  = step Poll.main_iteration (forget_outcome o) e
  /\ outcome_synced (step (zloop_iteration Reactor.call) o e).
Proof.
  destruct o as [w|w|f w]; intros H; try (split; [reflexivity|exact I]).
  destruct e as [s msg| |].
  - destruct w, s; split; [reflexivity|exact H|reflexivity|exact H].
  - apply tick_simulation; exact H.
  - destruct w; split; [reflexivity|exact H].
Qed.

Lemma run_simulation (es : list event) : forall o,
  outcome_synced o ->
  forget_outcome (run (zloop_iteration Reactor.call) o es)
  = run Poll.main_iteration (forget_outcome o) es
  /\ outcome_synced (run (zloop_iteration Reactor.call) o es).
Proof.
  induction es as [|e es IH]; intros o H; [split; [reflexivity|exact H]|].
  destruct (step_simulation o e H) as [E S].
  unfold run in *; simpl. rewrite <- E. apply IH; exact S.
Qed.

Lemma main_simulation (es : list event) :
  forget_outcome (Reactor.main es) = Poll.main es
  /\ outcome_synced (Reactor.main es).
Proof.
  apply (run_simulation es Reactor.start); reflexivity.
Qed.

End Simulation.

(* ================================================================== *)
(** ** Runs *)

Section Runs.
Import Czmq.

Lemma run_snoc (it : M bool) (o : outcome) (es : list event) (e : event) :
  run it o (es ++ [e]) = step it (run it o es) e.
Proof. unfold run; rewrite fold_left_app; reflexivity. Qed.

Lemma run_app (it : M bool) (o : outcome) (es es' : list event) :
  run it o (es ++ es') = run it (run it o es) es'.
Proof. unfold run; apply fold_left_app. Qed.

(** The clean-up loop tests the size before it pops: it always completes. *)
Lemma cleanup_completes (n : nat) : forall w,
  exists w', cleanup n w = Ok tt w'.
Proof.
  induction n as [|n IH]; intros w; [exists w; reflexivity|].
  destruct w as [l rs fq bq i tr]; destruct l as [|a l].
  - eexists; reflexivity.
  - simpl; unfold bind; simpl. apply IH.
Qed.

Lemma finish_stops (w : world) : exists w', finish w = Stopped w'.
Proof.
  unfold finish. destruct (cleanup_completes (length (workers w)) w) as [w' E].
  rewrite E; exists w'; reflexivity.
Qed.

Lemma pop_failed_forget (o : outcome) :
  pop_failed (forget_outcome o) = pop_failed o.
Proof. destruct o; reflexivity. Qed.

(** One iteration of the poll loop never pops from the empty list: the
    frontend is looked at only when the list was non-empty at the poll, and
    the backend branch before it removes nothing. *)
Lemma poll_tick_pops_safely (w : world) :
  pop_failed (step Poll.main_iteration (Running w) Tick) = false.
Proof.
  destruct w as [l rs fq bq i tr]. destruct i.
  - simpl. unfold Poll.main_iteration, bind; simpl.
    destruct l; simpl; [reflexivity|].
    match goal with |- context [finish ?w] =>
      destruct (finish_stops w) as [w' ->] end; reflexivity.
  - destruct l as [|a0 l0], bq as [|m bq'], fq as [|r fq'];
      unfold Poll.main_iteration, bind; simpl;
      unfold bind; simpl;
      try reflexivity;
      try (destruct m as [|a [|[|b fb] rest]]);
      try (destruct (Byte.eqb b x01) eqn:E);
      crunch; rewrite ?E; crunch; reflexivity.
Qed.

Lemma poll_step_pops_safely (o : outcome) (e : event) :
  pop_failed o = false ->
  pop_failed (step Poll.main_iteration o e) = false.
Proof.
  destruct o as [w|w|f w]; intros H; try exact H.
  destruct e; [reflexivity | apply poll_tick_pops_safely | reflexivity].
Qed.

Lemma poll_run_pops_safely (es : list event) :
  pop_failed (Poll.main es) = false.
Proof.
  unfold Poll.main.
  induction es as [|e es IH] using rev_ind; [reflexivity|].
  rewrite run_snoc. apply poll_step_pops_safely; exact IH.
Qed.

Lemma poll_ready_phase (l : list zframe) : forall ws tr,
  run Poll.main_iteration (Running (World ws [] [] [] false tr)) (ready_phase l)
  = Running (World (ws ++ l) [] [] [] false (tr ++ map Appended l)).
Proof.
  induction l as [|a l IH]; intros ws tr.
  - simpl. rewrite !app_nil_r; reflexivity.
  - change (ready_phase (a :: l))
      with ([Arrive Backend [a; LRU_READY]; Tick] ++ ready_phase l).
    rewrite run_app.
    replace (run Poll.main_iteration (Running (World ws [] [] [] false tr))
               [Arrive Backend [a; LRU_READY]; Tick])
      with (Running (World (ws ++ [a]) [] [] [] false (tr ++ [Appended a]))).
    + rewrite IH, <- !app_assoc; reflexivity.
    + unfold run; simpl. unfold Poll.main_iteration, bind; simpl.
      destruct ws; simpl; unfold bind; simpl; crunch; reflexivity.
Qed.

Lemma poll_request_phase (jobs : list (zframe * zmsg)) : forall rest tr,
  run Poll.main_iteration
      (Running (World (map fst jobs ++ rest) [] [] [] false tr))
      (request_phase (map snd jobs))
  = Running (World rest [] [] [] false (tr ++ dispatched jobs)).
Proof.
  induction jobs as [|[a m] jobs IH]; intros rest tr.
  - simpl. rewrite app_nil_r; reflexivity.
  - change (request_phase (map snd ((a, m) :: jobs)))
      with ([Arrive Frontend m; Tick] ++ request_phase (map snd jobs)).
    rewrite run_app.
    replace (run Poll.main_iteration
               (Running (World (map fst ((a, m) :: jobs) ++ rest)
                               [] [] [] false tr))
               [Arrive Frontend m; Tick])
      with (Running (World (map fst jobs ++ rest) [] [] [] false
                           (tr ++ [Popped a; Sent Backend (zmsg_wrap m a)]))).
    + rewrite IH. unfold dispatched; simpl. rewrite <- !app_assoc; reflexivity.
    + unfold run; simpl. unfold Poll.main_iteration, bind; simpl.
      unfold bind; simpl; crunch.
      unfold log, set_workers; simpl. rewrite <- app_assoc; reflexivity.
Qed.

Lemma sends_app (t t' : list effect) : sends (t ++ t') = sends t ++ sends t'.
Proof. unfold sends; apply flat_map_app. Qed.

Lemma sends_appended (l : list zframe) : sends (map Appended l) = [].
Proof. induction l as [|a l IH]; [reflexivity | exact IH]. Qed.

Lemma sends_dispatched (jobs : list (zframe * zmsg)) :
  sends (dispatched jobs)
  = map (fun j => (Backend, zmsg_wrap (snd j) (fst j))) jobs.
Proof.
  induction jobs as [|j jobs IH]; [reflexivity|].
  simpl; f_equal; exact IH.
Qed.

(** A reactor run that the poll loop matches with a running world [w] is
    running in [w] with its readers. *)
Lemma reactor_of_poll (es : list event) (w : world) :
  Poll.main es = Running w ->
  exists w', Reactor.main es = Running w'
             /\ workers w' = workers w /\ trace w' = trace w
             /\ readers w' = subscribed (workers w).
Proof.
  intros H. destruct (main_simulation es) as [E S]. rewrite H in E.
  destruct (Reactor.main es) as [w'|w'|f w']; try discriminate E.
  exists w'. injection E as <-. simpl in S. unfold synced in S.
  repeat split; try reflexivity. exact S.
Qed.

End Runs.

(* ================================================================== *)
(** ** Properties of the brokers *)

Section Properties.
Import Czmq.

Lemma observable_forget (o : outcome) :
  observable (forget_outcome o) = observable o.
Proof. destruct o; reflexivity. Qed.

(** The iteration polls the sockets of [Poll.polled]. *)
Lemma poll_iteration_polls (w : world) :
  Poll.main_iteration w
  = (polled <- zmq_poll (Poll.polled w) ;;
     if Z.eqb (fst polled) (-1) then break
     else
       (if revents_of Backend (snd polled) then Poll.main_backend
        else ret tt) ;;
       (if revents_of Frontend (snd polled) then Poll.main_frontend
        else ret tt) ;;
       ret true) w.
Proof. reflexivity. Qed.




(** C2. For every sequence of arrivals on the frontend and the backend (with
    the iterations and interruptions between them), the poll loop and the
    reactor stand alike at the end, have sent the same messages on the same
    sockets in the same order, and hold the same ready workers. *)
Theorem poll_and_reactor_route_alike : forall es : list event,
  observable (Poll.main es) = observable (Reactor.main es).
Proof.
  intros es. destruct (main_simulation es) as [E _].
  rewrite <- E. apply observable_forget.
Qed.

(** C3. No run of either broker ends in a pop from an empty list of ready
    workers: the frontend branch runs only when the list was non-empty at
    the poll, and the backend branch that may run before it only appends. *)
Theorem pop_never_fails : forall es : list event,
  pop_failed (Poll.main es) = false /\ pop_failed (Reactor.main es) = false.
Proof.
  intros es; split; [apply poll_run_pops_safely|].
  destruct (main_simulation es) as [E _].
  rewrite <- pop_failed_forget, E. apply poll_run_pops_safely.
Qed.

(** C4. When N workers report ready and then N client requests arrive, with
    no other worker activity, the requests are sent on the backend in their
    order of arrival, the i-th wrapped with the address of the i-th worker
    that reported, and the list of ready workers is empty again. *)
Theorem lru_fifo_routing : forall jobs : list (zframe * zmsg),
  let es := ready_phase (map fst jobs) ++ request_phase (map snd jobs) in
  let routed := map (fun j => (Backend, zmsg_wrap (snd j) (fst j))) jobs in
  (exists w, Poll.main es = Running w
             /\ sends (trace w) = routed /\ workers w = [])
  /\ (exists w, Reactor.main es = Running w
                /\ sends (trace w) = routed /\ workers w = []).
Proof.
  intros jobs es routed.
  assert (P : Poll.main es
              = Running (World [] [] [] [] false
                           (map Appended (map fst jobs) ++ dispatched jobs))).
  { unfold Poll.main, Poll.start, fresh, es. rewrite run_app.
    rewrite poll_ready_phase. simpl.
    rewrite <- (app_nil_r (map fst jobs)) at 1.
    apply poll_request_phase. }
  assert (S : sends (map Appended (map fst jobs) ++ dispatched jobs) = routed).
  { rewrite sends_app, sends_appended, sends_dispatched; reflexivity. }
  split.
  - eexists; split; [exact P|]. split; [exact S | reflexivity].
  - destruct (reactor_of_poll es _ P) as (w' & R & Hw & Ht & _).
    exists w'; split; [exact R|]. rewrite Hw, Ht. split; [exact S | reflexivity].
Qed.

(** C5. Unwrapping a message onto which an address was wrapped gives back
    that address and the message as it was. *)
Theorem unwrap_wrap_roundtrip : forall (m : zmsg) (a : zframe),
  zmsg_unwrap (zmsg_wrap m a) = Some (a, m).
Proof. intros m a; reflexivity. Qed.

Lemma backend_absorbs (ws : list zframe) (rs : list reader)
      (fq bq : list zmsg) (tr : list effect)
      (W : zframe) (fb : list byte) (more : zmsg) :
  absorbs_ready Poll.main_backend
    (World ws rs fq ((W :: (x01 :: fb) :: more) :: bq) false tr) W
  /\ absorbs_ready Reactor.s_handle_backend
       (World ws rs fq ((W :: (x01 :: fb) :: more) :: bq) false tr) W.
Proof.
  split; unfold absorbs_ready; crunch;
    eexists; eexists; (split; [reflexivity|]); simpl;
    (split; [reflexivity|]); (split; [reflexivity|]);
    rewrite sends_app, app_nil_r; reflexivity.
Qed.

(** Where the forward works: a backend message that leads with the worker
    address [W], followed by a client address [C] that has a first byte
    other than 1 and by any further frames, makes the broker queue [W] and
    then send the remainder, which leads with [C], on the frontend, once and
    to [C]. *)
Theorem reply_forwarded_to_client :
  forall (ws : list zframe) (rs : list reader) (fq bq : list zmsg)
         (tr : list effect) (W : zframe) (b : byte) (c : list byte)
         (rest : zmsg),
    Byte.eqb b x01 = false ->
    forwards_reply Poll.main_backend
      (World ws rs fq ((W :: (b :: c) :: rest) :: bq) false tr) W (b :: c) rest
    /\ forwards_reply Reactor.s_handle_backend
         (World ws rs fq ((W :: (b :: c) :: rest) :: bq) false tr)
         W (b :: c) rest.
Proof.
  intros ws rs fq bq tr W b c rest E.
  split; unfold forwards_reply; crunch; rewrite E;
    unfold log; simpl; rewrite <- app_assoc;
    eexists; eexists; repeat split.
Qed.

Lemma reply_forwarded_to_client_witness :
  Byte.eqb x00 x01 = false
  /\ forwards_reply Poll.main_backend
       (World [] [] [] [[worker_1; client_1; ok]] false [])
       worker_1 client_1 [ok]
  /\ forwards_reply Reactor.s_handle_backend
       (World [] [] [] [[worker_1; client_1; ok]] false [])
       worker_1 client_1 [ok].
Proof.
  split; [reflexivity|].
  apply (reply_forwarded_to_client [] [] [] [] [] worker_1 x00 [x43; x31] [ok]).
  reflexivity.
Defined.

(** C6. The forward of a worker reply to its client fails in the code for
    a client address that begins with the byte 1: the reply
    [[worker_1; client_x; ok]] is no readiness signal, which is one frame of
    one byte, yet the one-byte test of the code takes it for one; both
    brokers queue the worker, destroy the reply and send nothing to the
    client. *)
Theorem reply_to_sentinel_led_address_discarded :
  Poll.main_backend (World [] [] [] [[worker_1; client_x; ok]] false [])
  = Ok tt (World [worker_1] [] [] [] false [Appended worker_1])
  /\ Reactor.s_handle_backend
       (World [] (subscribed []) [] [[worker_1; client_x; ok]] false [])
     = Ok 0%Z (World [worker_1] (subscribed [worker_1]) [] [] false
                    [Appended worker_1])
  /\ ~ forwards_reply Poll.main_backend
        (World [] [] [] [[worker_1; client_x; ok]] false [])
        worker_1 client_x [ok]
  /\ ~ forwards_reply Reactor.s_handle_backend
        (World [] (subscribed []) [] [[worker_1; client_x; ok]] false [])
        worker_1 client_x [ok].
Proof.
  split; [reflexivity|]. split; [reflexivity|].
  split; intros (r & w' & E & _ & T & _);
    vm_compute in E; injection E as _ <-; discriminate T.
Qed.

(** C8. A backend message whose body is the one-byte sentinel is discarded:
    the broker queues the address of its sender and sends nothing. *)
Theorem ready_signal_discarded :
  forall (ws : list zframe) (rs : list reader) (fq bq : list zmsg)
         (tr : list effect) (W : zframe),
    absorbs_ready Poll.main_backend
      (World ws rs fq ([W; LRU_READY] :: bq) false tr) W
    /\ absorbs_ready Reactor.s_handle_backend
         (World ws rs fq ([W; LRU_READY] :: bq) false tr) W.
Proof.
  intros ws rs fq bq tr W. apply (backend_absorbs ws rs fq bq tr W [] []).
Qed.

(** C10. The sentinel test reads one byte: a backend message whose first
    body frame begins with the byte 1 is discarded like a readiness signal,
    whatever follows that byte in the frame and whatever frames follow. *)
Theorem sentinel_test_reads_one_byte :
  forall (ws : list zframe) (rs : list reader) (fq bq : list zmsg)
         (tr : list effect) (W : zframe) (fb : list byte) (more : zmsg),
    memcmp (zframe_data (x01 :: fb)) LRU_READY 1 = Some 0%Z
    /\ absorbs_ready Poll.main_backend
         (World ws rs fq ((W :: (x01 :: fb) :: more) :: bq) false tr) W
    /\ absorbs_ready Reactor.s_handle_backend
         (World ws rs fq ((W :: (x01 :: fb) :: more) :: bq) false tr) W.
Proof.
  intros ws rs fq bq tr W fb more.
  split; [reflexivity | apply backend_absorbs].
Qed.

(** C7 as stated fails in the reactor when the request takes the last ready
    worker: the handler then also cancels the frontend reader. *)
Lemma last_worker_dispatch_cancels_reader :
  ~ only_dispatches Reactor.s_handle_frontend
      (World [worker_1] (subscribed [worker_1]) [[client_1; hello]] []
             false []).
Proof.
  intros [r E]. vm_compute in E. discriminate E.
Qed.

(** C7, amended. A client request handled while the list of ready workers
    is non-empty is sent once, on the backend, wrapped with the address
    popped from the front of the list, which so gets one shorter.  In the
    poll loop nothing else changes; in the reactor nothing else changes but
    the frontend reader, cancelled when the list has become empty. *)
Theorem request_dispatched_to_one_worker :
  forall (a : zframe) (ws : list zframe) (rs : list reader)
         (m : zmsg) (fq bq : list zmsg) (tr : list effect),
    only_dispatches Poll.main_frontend
      (World (a :: ws) rs (m :: fq) bq false tr)
    /\ Reactor.s_handle_frontend (World (a :: ws) rs (m :: fq) bq false tr)
       = Ok 0%Z
           (World ws
              (match ws with
               | [] => filter (fun r => negb (channel_eqb (rd_socket r) Frontend))
                              rs
               | _ :: _ => rs
               end)
              fq bq false
              (tr ++ [Popped a; Sent Backend (zmsg_wrap m a)]))
    /\ destination (zmsg_wrap m a) = Some a
    /\ length ws + 1 = length (a :: ws).
Proof.
  intros a ws rs m fq bq tr. repeat split.
  - exists tt; simpl. crunch; reflexivity.
  - crunch. destruct ws; reflexivity.
  - simpl; lia.
Qed.

(** C9 as stated fails: a backend message with no frame stops both brokers,
    and a frontend message with no frame is sent on to a worker. *)
Lemma malformed_backend_message_stops_broker :
  zmsg_unwrap [] = None
  /\ ~ drops_and_continues Poll.main_backend (World [] [] [] [[]] false [])
  /\ ~ drops_and_continues Reactor.s_handle_backend
        (World [] (subscribed []) [] [[]] false [])
  /\ crashed (Poll.main [Arrive Backend []; Tick]) = true
  /\ crashed (Reactor.main [Arrive Backend []; Tick]) = true
  /\ ~ drops_and_continues Poll.main_frontend
        (World [worker_1] [] [[]] [] false []).
Proof.
  repeat split; try reflexivity;
    intros (r & w' & E & Hw & Ht); vm_compute in E; try discriminate E.
  injection E as _ <-. discriminate Hw.
Qed.

(** C9, amended. Neither broker tests for a missing address frame.  A
    backend message without a leading frame is not dropped with the broker
    going on: the result of unwrap is used untested and the iteration that
    takes the message ends in a failure of the broker.  The frontend code
    never unwraps: with a worker ready, such a request is wrapped and sent
    to the backend like any other, and the list of ready workers loses its
    head. *)
Theorem missing_address_frame_unhandled :
  forall (ws : list zframe) (rs : list reader) (fq bq : list zmsg)
         (tr : list effect) (m : zmsg),
    zmsg_unwrap m = None ->
    crashed (step Poll.main_iteration
                  (Running (World ws rs fq (m :: bq) false tr)) Tick) = true
    /\ crashed (step (zloop_iteration Reactor.call)
                     (Running (World ws (subscribed ws) fq (m :: bq) false tr))
                     Tick) = true
    /\ (forall a : zframe,
          only_dispatches Poll.main_frontend
            (World (a :: ws) rs (m :: fq) bq false tr))
    /\ (forall a : zframe,
          exists w' : world,
            Reactor.s_handle_frontend (World (a :: ws) rs (m :: fq) bq false tr)
            = Ok 0%Z w'
            /\ workers w' = ws
            /\ trace w' = tr ++ [Popped a; Sent Backend (zmsg_wrap m a)]).
Proof.
  intros ws rs fq bq tr m H.
  destruct m as [|f m]; [clear H | discriminate H].
  split; [|split; [|split]].
  - destruct ws, fq; unfold step, Poll.main_iteration, bind; simpl;
      unfold bind; simpl; crunch; reflexivity.
  - destruct ws, fq; unfold step, zloop_iteration, bind; simpl;
      unfold bind; simpl; crunch; reflexivity.
  - intros a. exists tt; simpl. crunch; reflexivity.
  - intros a. crunch. eexists; split; [reflexivity|]. split; reflexivity.
Qed.

Lemma missing_address_frame_unhandled_witness :
  zmsg_unwrap [] = None
  /\ crashed (step Poll.main_iteration
                   (Running (World [] [] [] [[]] false [])) Tick) = true.
Proof.
  split; [reflexivity|].
  apply (missing_address_frame_unhandled [] [] [] [] [] []). reflexivity.
Defined.

End Properties.

(* ================================================================== *)
(** ** Invariants kept by every call *)

Section Preservation.
Import Czmq.

Variable P : world -> Prop.

Lemma preserves_ret {A} (a : A) : preserves P (ret a).
Proof. intros w H; exact H. Qed.

Lemma preserves_break {A} : preserves P (@break A).
Proof. intros w H; exact H. Qed.

Lemma preserves_abort {A} (f : fault) : preserves P (@abort A f).
Proof. intros w H; exact H. Qed.

Lemma preserves_bind {A B} (m : M A) (k : A -> M B) :
  preserves P m -> (forall a, preserves P (k a)) -> preserves P (bind m k).
Proof.
  intros Hm Hk w H. specialize (Hm w H). unfold bind.
  destruct (m w) as [a w'|w'|f w']; simpl in *; [apply Hk| |]; assumption.
Qed.

Lemma preserves_unchecked {A} (f : fault) (o : option A) :
  preserves P (unchecked f o).
Proof. destruct o; intros w H; exact H. Qed.

Lemma preserves_size : preserves P zlist_size.
Proof. intros w H; exact H. Qed.

Lemma preserves_destroy (msg : zmsg) : preserves P (zmsg_destroy msg).
Proof. intros w H; exact H. Qed.

End Preservation.

Section FifoKept.
Import Czmq.

Lemma appended_app (t t' : list effect) :
  appended (t ++ t') = appended t ++ appended t'.
Proof. apply flat_map_app. Qed.

Lemma popped_app (t t' : list effect) :
  popped (t ++ t') = popped t ++ popped t'.
Proof. apply flat_map_app. Qed.

Lemma fifo_append (a : zframe) : preserves fifo (zlist_append a).
Proof.
  intros [l rs fq bq i tr]; unfold fifo; simpl; intros H.
  rewrite appended_app, popped_app, H; simpl.
  rewrite app_nil_r, app_assoc; reflexivity.
Qed.

Lemma fifo_pop : preserves fifo zlist_pop.
Proof.
  intros [l rs fq bq i tr]; unfold fifo, zlist_pop; simpl; intros H.
  destruct l as [|a l]; simpl; [exact H|].
  rewrite appended_app, popped_app, H; simpl.
  rewrite app_nil_r, <- app_assoc; reflexivity.
Qed.

Lemma fifo_recv (s : channel) : preserves fifo (zmsg_recv s).
Proof.
  intros [l rs fq bq i tr]; unfold fifo, zmsg_recv; simpl; intros H.
  destruct i; [exact H|]. destruct s; simpl.
  - destruct fq; exact H.
  - destruct bq; exact H.
Qed.

Lemma fifo_send (msg : zmsg) (s : channel) : preserves fifo (zmsg_send msg s).
Proof.
  intros [l rs fq bq i tr]; unfold fifo; simpl; intros H.
  rewrite appended_app, popped_app, H; simpl. rewrite !app_nil_r; reflexivity.
Qed.

Lemma fifo_poll (items : list channel) : preserves fifo (zmq_poll items).
Proof.
  intros [l rs fq bq i tr]; unfold fifo, zmq_poll; simpl; intros H.
  destruct i; exact H.
Qed.

Lemma fifo_reader (s : channel) (h : handler) :
  preserves fifo (zloop_reader s h).
Proof. intros [l rs fq bq i tr] H; exact H. Qed.

Lemma fifo_cancel (s : channel) : preserves fifo (zloop_cancel s).
Proof. intros [l rs fq bq i tr] H; exact H. Qed.

(** Break a computation into its calls. *)
Ltac calls :=
  repeat first
    [ apply preserves_ret | apply preserves_break | apply preserves_abort
    | apply preserves_unchecked | apply preserves_size
    | apply preserves_destroy
    | apply fifo_append | apply fifo_pop | apply fifo_recv | apply fifo_send
    | apply fifo_poll | apply fifo_reader | apply fifo_cancel
    | apply preserves_bind; [|intros ?]
    | match goal with
      | |- preserves _ (if ?b then _ else _) => destruct b
      | |- preserves _ (match ?o with Some _ => _ | None => _ end) =>
          destruct o
      end ].

Lemma fifo_poll_iteration : preserves fifo Poll.main_iteration.
Proof.
  unfold Poll.main_iteration, Poll.main_backend, Poll.main_frontend. calls.
Qed.

Lemma fifo_call (h : handler) : preserves fifo (Reactor.call h).
Proof.
  destruct h; unfold Reactor.call, Reactor.s_handle_frontend,
    Reactor.s_handle_backend; calls.
Qed.

Lemma fifo_dispatch (ready : list reader) :
  preserves fifo (zloop_dispatch Reactor.call ready).
Proof.
  induction ready as [|r ready IH]; simpl; [apply preserves_ret|].
  apply preserves_bind; [apply fifo_call|].
  intros rc; destruct (Z.eqb rc (-1)); [apply preserves_ret | exact IH].
Qed.

Lemma fifo_zloop_iteration : preserves fifo (zloop_iteration Reactor.call).
Proof.
  unfold zloop_iteration.
  apply preserves_bind; [intros w H; exact H|]. intros pollset.
  apply preserves_bind; [apply fifo_poll|]. intros polled.
  destruct (Z.eqb (fst polled) (-1)); [apply preserves_ret|apply fifo_dispatch].
Qed.

Lemma fifo_cleanup (n : nat) : preserves fifo (cleanup n).
Proof.
  induction n as [|n IH]; simpl; [apply preserves_ret|].
  apply preserves_bind; [apply preserves_size|].
  intros size; destruct (Nat.eqb size 0); [apply preserves_ret|].
  apply preserves_bind; [apply fifo_pop | intros _; exact IH].
Qed.

Lemma fifo_finish (w : world) : fifo w -> fifo (world_of (finish w)).
Proof.
  intros H. unfold finish.
  pose proof (fifo_cleanup (length (workers w)) w H) as K.
  destruct (cleanup _ w); exact K.
Qed.

Lemma fifo_step (it : M bool) (o : outcome) (e : event) :
  preserves fifo it -> fifo (world_of o) -> fifo (world_of (step it o e)).
Proof.
  intros Hit H. destruct o as [w|w|f w]; simpl; try exact H.
  destruct e as [s msg| |].
  - destruct w, s; exact H.
  - specialize (Hit w H).
    destruct (it w) as [[|] w'|w'|f w']; simpl in *;
      first [apply fifo_finish; exact Hit | exact Hit].
  - destruct w; exact H.
Qed.

Lemma fifo_run (it : M bool) (es : list event) : forall o,
  preserves fifo it -> fifo (world_of o) -> fifo (world_of (run it o es)).
Proof.
  induction es as [|e es IH]; intros o Hit H; [exact H|].
  apply IH; [exact Hit | apply fifo_step; assumption].
Qed.

End FifoKept.

(* ================================================================== *)
(** ** The books of a run *)

Section Accounting.
Import Czmq.

Lemma destinations_app (t t' : list effect) :
  backend_destinations (t ++ t')
  = backend_destinations t ++ backend_destinations t'.
Proof. apply flat_map_app. Qed.

Lemma served_app (t t' : list effect) :
  served (t ++ t') = served t ++ served t'.
Proof. apply flat_map_app. Qed.

Lemma forwarded_app (t t' : list effect) :
  forwarded (t ++ t') = forwarded t ++ forwarded t'.
Proof. apply flat_map_app. Qed.

Lemma heads_app (l l' : list zmsg) : heads (l ++ l') = heads l ++ heads l'.
Proof. apply flat_map_app. Qed.

Lemma arrivals_app (s : channel) (es es' : list event) :
  arrivals s (es ++ es') = arrivals s es ++ arrivals s es'.
Proof. apply flat_map_app. Qed.

(** Settle the books of a world given by its fields. *)
Ltac settle H :=
  unfold at_observation, accounted, log, set_workers in *; simpl in *;
  let H1 := fresh in let H2 := fresh in let H3 := fresh in
  destruct H as (H1 & H2 & H3); subst;
  rewrite ?popped_app, ?appended_app, ?served_app, ?destinations_app;
  simpl; rewrite ?app_nil_r, ?H1;
  repeat split; rewrite <- ?app_assoc; reflexivity.

Lemma poll_tick_accounted (F : list zmsg) (B : list zframe) (w : world) :
  accounted F B w ->
  at_observation (accounted F B) (step Poll.main_iteration (Running w) Tick).
Proof.
  destruct w as [l rs fq bq i tr]. intros H. destruct i.
  - simpl. unfold Poll.main_iteration, bind; simpl.
    destruct l; simpl; [exact I|].
    match goal with |- context [finish ?w] =>
      destruct (finish_stops w) as [w' ->] end; exact I.
  - destruct l as [|a0 l0], bq as [|m bq'], fq as [|r fq'];
      unfold Poll.main_iteration, bind; simpl;
      unfold bind; simpl;
      try exact H;
      try (destruct m as [|a [|[|b fb] rest]]);
      try (destruct (Byte.eqb b x01) eqn:E);
      crunch; rewrite ?E; crunch; try exact I.
    all: settle H.
Qed.

Lemma step_accounted (es : list event) (o : outcome) (e : event) :
  at_observation
    (accounted (arrivals Frontend es) (heads (arrivals Backend es))) o ->
  at_observation
    (accounted (arrivals Frontend (es ++ [e]))
               (heads (arrivals Backend (es ++ [e]))))
    (step Poll.main_iteration o e).
Proof.
  destruct o as [w|w|f w]; intros H; try exact I.
  rewrite !arrivals_app, heads_app.
  destruct e as [s msg| |].
  - destruct w as [l rs fq bq i tr], s; simpl in *;
      destruct H as (H1 & H2 & H3); unfold accounted; simpl;
      rewrite ?app_nil_r, ?heads_app, H2, H3; simpl;
      repeat split; rewrite ?app_assoc, ?app_nil_r; auto.
  - simpl arrivals; simpl heads. rewrite !app_nil_r.
    apply poll_tick_accounted; exact H.
  - destruct w; simpl in *. rewrite !app_nil_r. exact H.
Qed.

Lemma poll_run_accounted (es : list event) :
  at_observation
    (accounted (arrivals Frontend es) (heads (arrivals Backend es)))
    (Poll.main es).
Proof.
  unfold Poll.main.
  induction es as [|e es IH] using rev_ind.
  - repeat split.
  - rewrite run_snoc. apply step_accounted; exact IH.
Qed.

(** The reactor keeps the same books: it differs from the poll loop in its
    readers only. *)
Lemma reactor_run_accounted (es : list event) :
  at_observation
    (accounted (arrivals Frontend es) (heads (arrivals Backend es)))
    (Reactor.main es).
Proof.
  pose proof (poll_run_accounted es) as H.
  destruct (main_simulation es) as [E _]. rewrite <- E in H.
  destruct (Reactor.main es) as [w|w|f w]; try exact I.
  destruct w; exact H.
Qed.

End Accounting.

(* ================================================================== *)
(** ** Further properties of the brokers and their peers *)

Section Further.
Import Czmq.

(** Run the iteration met in a goal. *)
Ltac tick :=
  unfold run, step, Poll.main_iteration, zloop_iteration, bind; simpl;
  unfold bind; simpl; crunch.

(** X2. In every running broker the workers that reported, in the order in
    which they were queued, are the workers to which requests were sent, in
    the order of the sends, followed by the workers still ready: whatever
    the interleaving of arrivals, the n-th request dispatched goes to the
    n-th worker queued. *)
Theorem dispatch_follows_queue_order : forall es : list event,
  at_observation
    (fun w => appended (trace w) = backend_destinations (trace w) ++ workers w)
    (Poll.main es)
  /\ at_observation
       (fun w =>
          appended (trace w) = backend_destinations (trace w) ++ workers w)
       (Reactor.main es).
Proof.
  intros es; split.
  - pose proof (poll_run_accounted es) as H.
    pose proof (fifo_run Poll.main_iteration es Poll.start
                  fifo_poll_iteration eq_refl) as K.
    fold (Poll.main es) in K.
    destruct (Poll.main es) as [w|w|f w]; try exact I.
    destruct H as (H & _). simpl in *. rewrite <- H; exact K.
  - pose proof (reactor_run_accounted es) as H.
    pose proof (fifo_run (zloop_iteration Reactor.call) es Reactor.start
                  fifo_zloop_iteration eq_refl) as K.
    fold (Reactor.main es) in K.
    destruct (Reactor.main es) as [w|w|f w]; try exact I.
    destruct H as (H & _). simpl in *. rewrite <- H; exact K.
Qed.

(** X3. In every running broker the client requests that arrived are, in
    order, the requests sent on to workers followed by the requests that the
    transport still holds for the frontend: no request is lost, sent twice,
    changed or overtaken. *)
Theorem no_request_lost_or_duplicated : forall es : list event,
  at_observation
    (fun w => arrivals Frontend es = served (trace w) ++ fe_pending w)
    (Poll.main es)
  /\ at_observation
       (fun w => arrivals Frontend es = served (trace w) ++ fe_pending w)
       (Reactor.main es).
Proof.
  intros es; split.
  - pose proof (poll_run_accounted es) as H.
    destruct (Poll.main es); try exact I. exact (proj1 (proj2 H)).
  - pose proof (reactor_run_accounted es) as H.
    destruct (Reactor.main es); try exact I. exact (proj1 (proj2 H)).
Qed.

(** X4. In every running broker the senders of the backend messages that
    arrived are, in order, the addresses appended to the list of ready
    workers followed by the senders of the messages that the transport still
    holds for the backend: every message taken from the backend queued its
    sender, once. *)
Theorem every_backend_message_queues_sender : forall es : list event,
  at_observation
    (fun w => heads (arrivals Backend es)
              = appended (trace w) ++ heads (be_pending w))
    (Poll.main es)
  /\ at_observation
       (fun w => heads (arrivals Backend es)
                 = appended (trace w) ++ heads (be_pending w))
       (Reactor.main es).
Proof.
  intros es; split.
  - pose proof (poll_run_accounted es) as H.
    destruct (Poll.main es); try exact I. exact (proj2 (proj2 H)).
  - pose proof (reactor_run_accounted es) as H.
    destruct (Reactor.main es); try exact I. exact (proj2 (proj2 H)).
Qed.

(** X5. While no worker is ready, an iteration reads nothing from the
    frontend, whatever waits there and whatever the backend brings in that
    iteration, a worker included: the requests stay with the transport and
    nothing is sent to the backend. *)
Theorem no_worker_no_frontend_read :
  forall (rs : list reader) (fq bq : list zmsg) (i : bool) (tr : list effect),
    let after_poll :=
      world_of (step Poll.main_iteration (Running (World [] rs fq bq i tr)) Tick)
    in
    let after_reactor :=
      world_of (step (zloop_iteration Reactor.call)
                     (Running (World [] (subscribed []) fq bq i tr)) Tick)
    in
    fe_pending after_poll = fq /\ served (trace after_poll) = served tr
    /\ fe_pending after_reactor = fq
    /\ served (trace after_reactor) = served tr.
Proof.
  intros rs fq bq i tr.
  destruct i; [repeat split|].
  destruct bq as [|m bq'], fq as [|r fq']; try (repeat split; fail);
    destruct m as [|a [|[|b fb] rest]]; tick;
    try (repeat split; rewrite ?served_app, ?app_nil_r; reflexivity);
    destruct (Byte.eqb b x01); simpl;
    repeat split; rewrite ?served_app; simpl; rewrite ?app_nil_r; reflexivity.
Qed.

(** X6. When a worker is ready and both sockets are readable, one iteration
    handles the backend message first and the request after it: the sender
    of the backend message joins the back of the list, its reply (if it is
    one) is forwarded, and then the request goes to the worker that was at
    the front, not to the one that has just arrived. *)
Theorem backend_handled_before_frontend :
  forall (a : zframe) (ws : list zframe) (rs : list reader)
         (m : zmsg) (fq : list zmsg)
         (W : zframe) (b : byte) (c : list byte) (rest : zmsg)
         (bq : list zmsg) (tr : list effect),
    let effects :=
      Appended W ::
      (if Byte.eqb b x01 then [] else [Sent Frontend ((b :: c) :: rest)])
      ++ [Popped a; Sent Backend (zmsg_wrap m a)]
    in
    step Poll.main_iteration
         (Running (World (a :: ws) rs (m :: fq)
                         ((W :: (b :: c) :: rest) :: bq) false tr)) Tick
    = Running (World (ws ++ [W]) rs fq bq false (tr ++ effects))
    /\ step (zloop_iteration Reactor.call)
            (Running (World (a :: ws) (subscribed (a :: ws)) (m :: fq)
                            ((W :: (b :: c) :: rest) :: bq) false tr)) Tick
       = Running (World (ws ++ [W]) (subscribed (a :: ws)) fq bq false
                        (tr ++ effects)).
Proof.
  intros a ws rs m fq W b c rest bq tr effects; unfold effects.
  destruct ws as [|a' ws]; split; tick; destruct (Byte.eqb b x01);
    simpl; crunch;
    unfold log, set_workers; simpl; rewrite <- ?app_assoc; simpl;
    reflexivity.
Qed.

Lemma cleanup_drains (l : list zframe) :
  forall (rs : list reader) (fq bq : list zmsg) (i : bool) (tr : list effect),
    cleanup (length l) (World l rs fq bq i tr)
    = Ok tt (World [] rs fq bq i (tr ++ map Popped l)).
Proof.
  induction l as [|a l IH]; intros rs fq bq i tr; simpl.
  - rewrite app_nil_r; reflexivity.
  - unfold bind; simpl. unfold log, set_workers; simpl.
    rewrite IH, <- app_assoc; reflexivity.
Qed.

(** X7. After an interruption the next iteration ends the loop whatever is
    readable: no message is received or sent, the clean-up pops every ready
    worker, front first, and the broker stops with an empty list. *)
Theorem interruption_drains_ready_list :
  forall (ws : list zframe) (rs : list reader) (fq bq : list zmsg)
         (i : bool) (tr : list effect),
    run Poll.main_iteration (Running (World ws rs fq bq i tr)) [Interrupt; Tick]
    = Stopped (World [] rs fq bq true (tr ++ map Popped ws))
    /\ run (zloop_iteration Reactor.call) (Running (World ws rs fq bq i tr))
           [Interrupt; Tick]
       = Stopped (World [] rs fq bq true (tr ++ map Popped ws)).
Proof.
  intros ws rs fq bq i tr.
  assert (P : Poll.main_iteration (World ws rs fq bq true tr)
              = Break (World ws rs fq bq true tr))
    by (destruct ws; reflexivity).
  assert (R : zloop_iteration Reactor.call (World ws rs fq bq true tr)
              = Ok false (World ws rs fq bq true tr)) by reflexivity.
  split.
  - change (run Poll.main_iteration (Running (World ws rs fq bq i tr))
                [Interrupt; Tick])
      with (step Poll.main_iteration (Running (World ws rs fq bq true tr)) Tick).
    unfold step. rewrite P. unfold finish; cbn [workers].
    rewrite cleanup_drains; reflexivity.
  - change (run (zloop_iteration Reactor.call)
                (Running (World ws rs fq bq i tr)) [Interrupt; Tick])
      with (step (zloop_iteration Reactor.call)
                 (Running (World ws rs fq bq true tr)) Tick).
    unfold step. rewrite R. unfold finish; cbn [workers].
    rewrite cleanup_drains; reflexivity.
Qed.

(** X8. A running reactor has exactly the backend reader followed, when a
    worker is ready, by one frontend reader: no reader is registered twice,
    so no handler runs twice in one iteration. *)
Theorem reactor_readers_exact : forall es : list event,
  at_observation
    (fun w => readers w = subscribed (workers w)
              /\ NoDup (map rd_socket (readers w)))
    (Reactor.main es).
Proof.
  intros es. destruct (main_simulation es) as [_ S].
  destruct (Reactor.main es) as [w|w|f w]; try exact I.
  simpl in *. unfold synced in S. split; [exact S|]. rewrite S.
  destruct (workers w); simpl; repeat constructor; simpl; intuition discriminate.
Qed.

(** X9. When the receive is interrupted, the backend branch of the poll loop
    leaves the loop, while its frontend branch and both handlers of the
    reactor return at once and leave the ending to the next poll; none of
    them changes the world. *)
Theorem interrupted_receive :
  forall (ws : list zframe) (rs : list reader) (fq bq : list zmsg)
         (tr : list effect),
    let w := World ws rs fq bq true tr in
    Poll.main_backend w = Break w
    /\ Poll.main_frontend w = Ok tt w
    /\ Reactor.s_handle_backend w = Ok 0%Z w
    /\ Reactor.s_handle_frontend w = Ok 0%Z w.
Proof. intros ws rs fq bq tr; repeat split. Qed.

(** *** The worker and the client *)

Lemma answer_snoc (envelope : zmsg) (p : zframe) :
  Worker.answer (envelope ++ [p]) = Some (envelope ++ [Worker.OK]).
Proof.
  unfold Worker.answer, Worker.zmsg_last.
  destruct (envelope ++ [p]) eqn:E.
  - destruct envelope; discriminate E.
  - rewrite <- E, removelast_last; reflexivity.
Qed.

(** X10. The worker answers a message by overwriting its last frame with
    ["OK"]: every frame before it, the client address among them, comes
    back as it was received, in the same order.  A message of a single
    frame comes back as ["OK"] alone, and for a message without frames
    there is no frame to reset and no answer. *)
Theorem worker_answer_keeps_envelope :
  (forall (envelope : zmsg) (p : zframe),
      Worker.answer (envelope ++ [p]) = Some (envelope ++ [Worker.OK]))
  /\ (forall p : zframe, Worker.answer [p] = Some [Worker.OK])
  /\ Worker.answer [] = None.
Proof.
  split; [exact answer_snoc|]. split; [|reflexivity].
  intros p; exact (answer_snoc [] p).
Qed.

Lemma worker_loop_turns (inbox : list zmsg) :
  Forall (fun msg => msg <> []) inbox ->
  exists sent,
    Worker.worker_loop inbox = Some sent
    /\ Forall2 (fun msg reply =>
                  removelast reply = removelast msg
                  /\ Worker.zmsg_last reply = Some Worker.OK) inbox sent.
Proof.
  induction 1 as [|msg inbox Hm _ IH]; [exists []; split; constructor|].
  destruct IH as (sent & E & F).
  destruct (exists_last Hm) as (envelope & p & ->).
  exists ((envelope ++ [Worker.OK]) :: sent). simpl.
  rewrite answer_snoc, E. split; [reflexivity|].
  constructor; [|exact F]. rewrite !removelast_last. split; [reflexivity|].
  unfold Worker.zmsg_last.
  destruct (envelope ++ [Worker.OK]) eqn:K;
    [destruct envelope; discriminate K|].
  rewrite <- K, last_last; reflexivity.
Qed.

(** X11. A worker that receives only messages with a frame takes turns with
    the broker: it sends the one-byte readiness signal first and then one
    answer for each message received, in order, each the message received
    with its last frame reset to ["OK"]; it never sends two messages in a
    row. *)
Theorem worker_takes_turns : forall inbox : list zmsg,
  Forall (fun msg => msg <> []) inbox ->
  exists sent,
    Worker.worker_task inbox = Some ([LRU_READY] :: sent)
    /\ length sent = length inbox
    /\ Forall2 (fun msg reply =>
                  removelast reply = removelast msg
                  /\ Worker.zmsg_last reply = Some Worker.OK) inbox sent.
Proof.
  intros inbox H. destruct (worker_loop_turns inbox H) as (sent & E & F).
  exists sent. unfold Worker.worker_task. rewrite E.
  split; [reflexivity|]. split; [|exact F].
  symmetry; exact (Forall2_length F).
Qed.

Lemma worker_takes_turns_witness :
  Forall (fun msg : zmsg => msg <> []) [[client_1; hello]]
  /\ exists sent,
       Worker.worker_task [[client_1; hello]] = Some ([LRU_READY] :: sent)
       /\ length sent = 1.
Proof.
  assert (H : Forall (fun msg : zmsg => msg <> []) [[client_1; hello]])
    by (repeat constructor; discriminate).
  split; [exact H|].
  destruct (worker_takes_turns _ H) as (sent & E & L & _).
  exists sent; split; [exact E | exact L].
Defined.

(** X13. One request, end to end.  A worker [W] reports ready; the
    request of a client [C], whose address has a first byte other than 1,
    arrives with at least one frame of payload; the worker answers what the
    broker sent it.  Then the request went to [W] with [C]'s address and
    payload intact, the answer went to [C] with the last frame of the
    payload reset to ["OK"], and [W] is ready again, in both brokers. *)
Theorem session_round_trip :
  forall (W : zframe) (b : byte) (c : list byte) (body : zmsg) (p : zframe),
    Byte.eqb b x01 = false ->
    let C := b :: c in
    let effects :=
      [Appended W; Popped W; Sent Backend (W :: C :: body ++ [p]);
       Appended W; Sent Frontend (C :: body ++ [Worker.OK])]
    in
    Poll.main (session W C (body ++ [p]))
    = Running (World [W] [] [] [] false effects)
    /\ Reactor.main (session W C (body ++ [p]))
       = Running (World [W] (subscribed [W]) [] [] false effects)
    /\ Transport.delivered (W :: C :: body ++ [p])
       = Some (W, C :: body ++ [p])
    /\ Transport.delivered (C :: body ++ [Worker.OK])
       = Some (C, body ++ [Worker.OK]).
Proof.
  intros W b c body p E C effects.
  assert (A : Worker.answer (C :: body ++ [p])
              = Some (C :: body ++ [Worker.OK]))
    by exact (answer_snoc (C :: body) p).
  unfold session.
  match goal with |- context [Worker.answer ?m] =>
    replace (Worker.answer m) with (Some (C :: body ++ [Worker.OK]))
      by (symmetry; exact A)
  end.
  unfold C, effects.
  split; [|split; [|split; reflexivity]].
  - unfold Poll.main, Poll.start, fresh, Transport.inbound, Worker.ready.
    tick. rewrite E. crunch. reflexivity.
  - unfold Reactor.main, Reactor.start, fresh, Transport.inbound, Worker.ready.
    tick. rewrite E. crunch. reflexivity.
Qed.

Lemma session_round_trip_witness :
  Byte.eqb x00 x01 = false
  /\ Poll.main (session worker_1 client_1 Client.request)
     = Running (World [worker_1] [] [] [] false
                  [Appended worker_1; Popped worker_1;
                   Sent Backend [worker_1; client_1; Client.HELLO];
                   Appended worker_1;
                   Sent Frontend [client_1; Worker.OK]]).
Proof.
  split; [reflexivity|].
  apply (session_round_trip worker_1 x00 [x43; x31] [] Client.HELLO).
  reflexivity.
Defined.

(** *** Replies *)

Lemma reply_parts_app (l l' : list zmsg) :
  reply_parts (l ++ l') = reply_parts l ++ reply_parts l'.
Proof. apply flat_map_app. Qed.

Lemma poll_tick_replied (R : list zmsg) (w : world) :
  replied R w ->
  at_observation (replied R) (step Poll.main_iteration (Running w) Tick).
Proof.
  destruct w as [l rs fq bq i tr]. intros H. destruct i.
  - simpl. unfold Poll.main_iteration, bind; simpl.
    destruct l; simpl; [exact I|].
    match goal with |- context [finish ?w] =>
      destruct (finish_stops w) as [w' ->] end; exact I.
  - destruct l as [|a0 l0], bq as [|m bq'], fq as [|r fq'];
      unfold Poll.main_iteration, bind; simpl;
      unfold bind; simpl;
      try exact H;
      try (destruct m as [|a [|[|b fb] rest]]);
      try (destruct (Byte.eqb b x01) eqn:E);
      crunch; rewrite ?E; crunch; try exact I.
    all: unfold at_observation, replied, log, set_workers in *; simpl in *;
      rewrite ?E in H; rewrite H, ?forwarded_app; simpl;
      rewrite ?app_nil_r, <- ?app_assoc; reflexivity.
Qed.

Lemma poll_run_replied (es : list event) :
  at_observation (replied (arrivals Backend es)) (Poll.main es).
Proof.
  unfold Poll.main.
  induction es as [|e es IH] using rev_ind; [reflexivity|].
  rewrite run_snoc, arrivals_app.
  destruct (run Poll.main_iteration Poll.start es) as [w|w|f w]; try exact I.
  destruct e as [s msg| |].
  - destruct w as [l rs fq bq i tr], s; unfold replied in *; simpl in *;
      rewrite ?app_nil_r, ?reply_parts_app, IH, ?app_assoc; reflexivity.
  - simpl arrivals. rewrite app_nil_r. apply poll_tick_replied; exact IH.
  - destruct w; simpl in *. rewrite app_nil_r. exact IH.
Qed.

(** X14. When no backend message arrives that has an empty frame after its
    leading one (where the sentinel test would read past the frame), then in
    every running broker the replies among the backend messages that
    arrived are, in order and frame for frame, the messages sent on the
    frontend followed by the replies the transport still holds: every reply
    taken from the backend is forwarded once, unchanged, and nothing else
    is sent on the frontend. *)
Theorem replies_forwarded_once_unchanged : forall es : list event,
  Forall testable (arrivals Backend es) ->
  at_observation
    (fun w => reply_parts (arrivals Backend es)
              = forwarded (trace w) ++ reply_parts (be_pending w))
    (Poll.main es)
  /\ at_observation
       (fun w => reply_parts (arrivals Backend es)
                 = forwarded (trace w) ++ reply_parts (be_pending w))
       (Reactor.main es).
Proof.
  intros es _. pose proof (poll_run_replied es) as H. split; [exact H|].
  destruct (main_simulation es) as [E _]. rewrite <- E in H.
  destruct (Reactor.main es) as [w|w|f w]; try exact I.
  destruct w; exact H.
Qed.

Lemma replies_forwarded_once_unchanged_witness :
  Forall testable
    (arrivals Backend [Arrive Backend [worker_1; client_1; ok]; Tick])
  /\ at_observation
       (fun w => reply_parts [[worker_1; client_1; ok]]
                 = forwarded (trace w) ++ reply_parts (be_pending w))
       (Poll.main [Arrive Backend [worker_1; client_1; ok]; Tick]).
Proof.
  assert (H : Forall testable
                (arrivals Backend
                   [Arrive Backend [worker_1; client_1; ok]; Tick]))
    by (repeat constructor; discriminate).
  split; [exact H|].
  exact (proj1 (replies_forwarded_once_unchanged _ H)).
Defined.

(** X15. With a worker ready, a request waiting and nothing to read on the
    backend, the next iteration serves the request at the head of the
    frontend and no other: it goes to the worker at the front of the list. *)
Theorem waiting_request_served_next :
  forall (a : zframe) (ws : list zframe) (rs : list reader)
         (m : zmsg) (fq : list zmsg) (tr : list effect),
    step Poll.main_iteration
         (Running (World (a :: ws) rs (m :: fq) [] false tr)) Tick
    = Running (World ws rs fq [] false
                     (tr ++ [Popped a; Sent Backend (zmsg_wrap m a)]))
    /\ step (zloop_iteration Reactor.call)
            (Running (World (a :: ws) (subscribed (a :: ws)) (m :: fq) []
                            false tr)) Tick
       = Running (World ws (subscribed ws) fq [] false
                        (tr ++ [Popped a; Sent Backend (zmsg_wrap m a)])).
Proof.
  intros a ws rs m fq tr; split; tick;
    unfold log, set_workers; simpl; rewrite <- ?app_assoc;
    destruct ws; reflexivity.
Qed.

End Further.
